(** * Thai bank transfer slip reader: a shallow embedding of [app.py]

    The Flask application saves an uploaded slip image, normalises it for
    OCR, reads an amount and a date out of the recognised text with regular
    expressions and appends one row to a CSV ledger.  The functions of
    [app.py] are embedded as computations in a state-and-exception monad
    over the part of the world the program touches: the files it reads and
    writes, the ledger among them. *)

From Stdlib Require Import ZArith NArith List String Ascii Strings.Byte Lia.
From Stdlib Require Import Sorting.Permutation.
From stdpp Require Import base option list sorting gmap.

Local Open Scope Z_scope.

(** ** Python values *)

(** A Python [str] is a sequence of Unicode code points. *)
Definition pychar := N.
Definition pystr := list N.

(** An ASCII literal as a [str]. *)
Definition py (s : string) : pystr :=
  List.map N_of_ascii (list_ascii_of_string s).

(** A [bytes] object. *)
Definition bytes := list byte.

(** The exceptions the program can meet. *)
Inductive exn : Type :=
  | re_error (msg : string) (pos : nat)
  | IndexError (msg : string)
  | ValueError
  | AttributeError
  | TypeError
  | StopIteration
  | FileNotFoundError
  | UnidentifiedImageError
  | IsADirectoryError
  | OSError (msg : string)
  | UnicodeDecodeError
  | UnicodeEncodeError
  | csv_Error (msg : string)
  | TesseractNotFoundError.

Inductive outcome (A : Type) : Type :=
  | Return (a : A)
  | Raise (e : exn).
Arguments Return {A} a.
Arguments Raise {A} e.

(** ** The world: the files the program can reach *)

(** One record of the CSV file, as [csv.reader] yields it. *)
Definition row := list pystr.

(** [fs] holds the regular files, each under its canonical path: the one
    key for every spelling that reaches the file ([uploads/a.png],
    [uploads/./a.png], ...).  Which file a path string reaches, if any, is
    answered by the operating system ([os_realpath] below).  The ledger is
    one of these files.  Directories are not part of the state: the program
    makes none while it serves. *)
Record World : Type := mkWorld {
  fs : gmap (list N) bytes
}.

(** What [open(path, 'wb')] followed by a write of [data] leaves. *)
Definition write_file (path : pystr) (data : bytes) (w : World) : World :=
  {| fs := <[path := data]> (fs w) |}.

(** ** The monad of the program: state passing with exceptions.  A raised
    exception keeps the changes made before it, as in Python. *)
Definition M (A : Type) : Type := World -> outcome A * World.

Definition ret {A} (a : A) : M A := fun w => (Return a, w).
Definition raise {A} (e : exn) : M A := fun w => (Raise e, w).
Definition bind {A B} (m : M A) (k : A -> M B) : M B :=
  fun w =>
    match m w with
    | (Return a, w') => k a w'
    | (Raise e, w') => (Raise e, w')
    end.

Declare Scope py_scope.
Delimit Scope py_scope with py.
Notation "x <- c ;; k" := (bind c (fun x => k))
  (at level 100, c at next level, right associativity) : py_scope.
Notation "c ;;; k" := (bind c (fun _ => k))
  (at level 100, right associativity) : py_scope.
Local Open Scope py_scope.

Definition get_world : M World := fun w => (Return w, w).
Definition put_world (w : World) : M unit := fun _ => (Return tt, w).

(** ** The [re] module on one-character patterns

    [for pattern in s] over a [str] yields its characters one at a time, so
    every pattern the program compiles is one character long.  The parser of
    [re] on such a pattern: a lone backslash, bracket, parenthesis or
    repetition sign is rejected; [.] is any character but a newline; [^], [$]
    and [|] match the empty string; a lone [{] and every other character
    stand for themselves. *)

Inductive node : Type :=
  | Any                 (* [.] without DOTALL *)
  | AtBeginning         (* [^] *)
  | AtEnd               (* [$] *)
  | Empty               (* [|]: two empty branches *)
  | Literal (c : pychar).

Definition sre_parse_char (c : pychar) : outcome node :=
  match c with
  | 92%N => Raise (re_error "bad escape (end of pattern)" 0)
  | 91%N => Raise (re_error "unterminated character set" 0)
  | 40%N => Raise (re_error "missing ), unterminated subpattern" 0)
  | 41%N => Raise (re_error "unbalanced parenthesis" 0)
  | 42%N | 43%N | 63%N => Raise (re_error "nothing to repeat" 0)
  | 46%N => Return Any
  | 94%N => Return AtBeginning
  | 36%N => Return AtEnd
  | 124%N => Return Empty
  | _ => Return (Literal c)
  end.

(** Case folding under [re.IGNORECASE] for a [str] pattern.  The table is the
    one that decides a match against an ASCII pattern character: the ASCII
    letters, and the four other code points that fold onto [i], [k] and [s]. *)
Definition fold_case (c : pychar) : pychar :=
  if ((65 <=? c) && (c <=? 90))%N then (c + 32)%N
  else if ((c =? 304) || (c =? 305))%N then 105%N
  else if (c =? 8490)%N then 107%N
  else if (c =? 383)%N then 115%N
  else c.

Definition newline : pychar := 10%N.

(** A match object: its span and its capture groups (group 0 is the span). *)
Record Match : Type := mkMatch {
  m_start : nat;
  m_end : nat;
  m_string : pystr;
  m_groups : list (option pystr)
}.

(** First index at or after [i] whose character satisfies [p]. *)
Fixpoint find_from (p : pychar -> bool) (text : pystr) (i : nat) : option nat :=
  match text with
  | [] => None
  | x :: rest => if p x then Some i else find_from p rest (S i)
  end.

(** Where [$] first holds: at the end, or before a newline that ends the
    string. *)
Fixpoint at_end_pos (text : pystr) (i : nat) : nat :=
  match text with
  | [] => i
  | x :: rest =>
      match rest with
      | [] => if (x =? newline)%N then i else S i
      | _ :: _ => at_end_pos rest (S i)
      end
  end.

(** A compiled one-character pattern has no capture group. *)
Definition char_match (text : pystr) (s e : nat) : Match :=
  {| m_start := s; m_end := e; m_string := text; m_groups := [] |}.

Definition sre_search (n : node) (ignorecase : bool) (text : pystr)
  : option Match :=
  match n with
  | Any =>
      match find_from (fun x => negb (x =? newline)%N) text 0 with
      | Some i => Some (char_match text i (S i))
      | None => None
      end
  | AtBeginning | Empty => Some (char_match text 0 0)
  | AtEnd => let i := at_end_pos text 0 in Some (char_match text i i)
  | Literal c =>
      let same x :=
        if ignorecase then (fold_case x =? fold_case c)%N else (x =? c)%N in
      match find_from same text 0 with
      | Some i => Some (char_match text i (S i))
      | None => None
      end
  end.

(** [re.search(pattern, text, flags)] for a one-character [pattern]: the
    pattern is compiled first, whatever the text. *)
Definition re_search (pattern : pychar) (text : pystr) (ignorecase : bool)
  : M (option Match) :=
  match sre_parse_char pattern with
  | Raise e => raise e
  | Return n => ret (sre_search n ignorecase text)
  end.

(** [match.group(k)]. *)
Definition slice (text : pystr) (s e : nat) : pystr :=
  firstn (e - s) (skipn s text).

Definition group (m : Match) (k : nat) : M (option pystr) :=
  match k with
  | O => ret (Some (slice (m_string m) (m_start m) (m_end m)))
  | S j =>
      match nth_error (m_groups m) j with
      | Some g => ret g
      | None => raise (IndexError "no such group")
      end
  end.

(** ** What the program takes from its libraries and from the system

    The built-in [float], [datetime], the image decoder of PIL, the level
    Otsu's method picks, the OCR engine, the [csv] module with the UTF-8
    codec of the file, and the paths of the operating system are not code
    of [app.py]; the program is embedded over any behaviour of theirs.  A
    parser that answers [None] stands for one that raises [ValueError]. *)

(** A decoded picture: rows of pixels, in one of the modes PIL decodes to
    (palette entries already looked up). *)
Inductive pixel : Type :=
  | PxL (v : Z)
  | PxRGB (r g b : Z)
  | PxRGBA (r g b a : Z).

Definition image := list (list pixel).

(** A single-channel 8-bit array, as [np.array] gives for mode [L]. *)
Definition gray := list (list Z).

(** What PIL makes of the bytes of a file.  [Image.open] reads the header
    only and rejects what it cannot identify; the pixels are read later, by
    the first operation that needs them, which is where a damaged body
    raises. *)
Inductive decoded : Type :=
  | Unidentified
  | Damaged (e : exn)
  | Decoded (img : image).

Definition header_row : row :=
  [py "Filename"; py "Amount"; py "Date"; py "Extracted_Text"].

Class Libraries : Type := {
  float : Type;
  float_of_str : pystr -> option float;
  float_repr : float -> pystr;
  datetime : Type;
  strptime : pystr -> pystr -> option datetime;
  strftime : datetime -> pystr -> pystr;
  Image_decode : bytes -> decoded;
  otsu_level : gray -> Z;
  (* the text read, or the error of an engine that cannot run *)
  image_to_string : gray -> string -> exn + pystr;
  os_path_join : pystr -> pystr -> pystr;
  (* the canonical path of the file [open(path)] reaches, or the error
     [open] raises for this path (no such directory, a directory, a name
     the system refuses) *)
  os_realpath : pystr -> exn + pystr;
  (* [os.path.exists] for a path that [open] refuses *)
  os_path_exists_unopenable : pystr -> bool;
  (* the bytes [writerow] sends to a UTF-8 file for one record, or the
     error of the encoder *)
  csv_writerow : row -> exn + bytes;
  (* the records [csv.reader] yields from the bytes of a UTF-8 file, in
     order, and the error that ends the reading, if one does *)
  csv_reader : bytes -> list row * option exn
}.

Section App.
Context {libs : Libraries}.

(** ** Data extraction: [extract_amount_and_date] *)

Definition amount_patterns : pystr := py "\d{3}[.]{1}\d{2}".

Definition date_patterns : pystr :=
  py "\d{1,2}[\s\u0E00-\u0E7F\]+.{1}+[\u0E00-\u0E7F]+\.?\s+\d{4}".

(** [s.replace(',', '')] on the value [group] returned. *)
Definition replace_commas (g : option pystr) : M pystr :=
  match g with
  | None => raise AttributeError
  | Some s => ret (List.filter (fun c => negb (c =? 44)%N) s)
  end.

Definition py_float (s : pystr) : M float :=
  match float_of_str s with
  | Some a => ret a
  | None => raise ValueError
  end.

(** The amount loop: one [re.search] per element of [amount_patterns];
    the first match is converted and ends the loop. *)
Fixpoint amount_loop (patterns : pystr) (text : pystr) (amount : option float)
  : M (option float) :=
  match patterns with
  | [] => ret amount
  | pattern :: rest =>
      m <- re_search pattern text true ;;
      match m with
      | Some mt =>
          g <- group mt 1 ;;
          s <- replace_commas g ;;
          a <- py_float s ;;
          ret (Some a)
      | None => amount_loop rest text amount
      end
  end.

(** The nested [try] blocks on the matched date. *)
Definition normalise_date (g : option pystr) : M (option pystr) :=
  match g with
  | None => raise TypeError
  | Some date_str =>
      match strptime date_str (py "%d/%m/%Y") with
      | Some d => ret (Some (strftime d (py "%Y-%m-%d")))
      | None =>
          match strptime date_str (py "%d-%m-%Y") with
          | Some d => ret (Some (strftime d (py "%Y-%m-%d")))
          | None => ret (Some date_str)
          end
      end
  end.

Fixpoint date_loop (patterns : pystr) (text : pystr) (date : option pystr)
  : M (option pystr) :=
  match patterns with
  | [] => ret date
  | pattern :: rest =>
      m <- re_search pattern text true ;;
      match m with
      | Some mt =>
          date_str <- group mt 1 ;;
          normalise_date date_str
      | None => date_loop rest text date
      end
  end.

Definition extract_amount_and_date (text : pystr)
  : M (option float * option pystr) :=
  amount <- amount_loop amount_patterns text None ;;
  date <- date_loop date_patterns text None ;;
  ret (amount, date).

(** ** Image preprocessing: [preprocess_image] *)

(** [ImageOps.grayscale]: PIL's conversion to mode [L] (ITU-R 601-2 luma in
    16-bit fixed point; the alpha channel is dropped). *)
Definition luma (p : pixel) : Z :=
  match p with
  | PxL v => v
  | PxRGB r g b | PxRGBA r g b _ =>
      Z.shiftr (r * 19595 + g * 38470 + b * 7471 + 32768) 16
  end.

Definition grayscale (img : image) : gray := List.map (List.map luma) img.

(** [cv2.threshold(src, 0, 255, THRESH_BINARY + THRESH_OTSU)]: the level
    given by the caller is replaced by Otsu's, and a pixel above it becomes
    [maxval], any other 0.  Both the level and the array are returned. *)
Definition threshold_otsu (src : gray) (maxval : Z) : Z * gray :=
  let thresh := otsu_level src in
  (thresh, List.map (List.map (fun v => if thresh <? v then maxval else 0)) src).

(** [cv2.medianBlur(src, 3)]: each pixel becomes the median of its 3x3
    neighbourhood, the border pixels being repeated outwards. *)
Definition height (a : gray) : nat := length a.
Definition width (a : gray) : nat := length (hd [] a).

Definition clamp (n : nat) (i : Z) : nat :=
  Z.to_nat (Z.max 0 (Z.min i (Z.of_nat n - 1))).

Definition px (a : gray) (y x : Z) : Z :=
  nth (clamp (width a) x) (nth (clamp (height a) y) a []) 0.

Definition window (a : gray) (y x : Z) : list Z :=
  flat_map (fun dy => List.map (fun dx => px a (y + dy) (x + dx)) [-1; 0; 1])
           [-1; 0; 1].

Definition median (l : list Z) : Z :=
  nth (length l / 2) (merge_sort Z.le l) 0.

Definition medianBlur (src : gray) : gray :=
  List.map
    (fun y =>
       List.map (fun x => median (window src (Z.of_nat y) (Z.of_nat x)))
                (seq 0 (width src)))
    (seq 0 (height src)).

(** ** Files *)

Definition RESULTS_FILE : pystr := py "expenses.csv".
Definition UPLOAD_FOLDER : pystr := py "uploads".

(** [os.path.exists(path)]. *)
Definition os_path_exists (path : pystr) : M bool :=
  w <- get_world ;;
  match os_realpath path with
  | inr p => ret (bool_decide (is_Some (fs w !! p)))
  | inl _ => ret (os_path_exists_unopenable path)
  end.

(** [open(path, 'rb').read()]. *)
Definition read_file (path : pystr) : M bytes :=
  w <- get_world ;;
  match os_realpath path with
  | inl e => raise e
  | inr p =>
      match fs w !! p with
      | None => raise FileNotFoundError
      | Some data => ret data
      end
  end.

(** [open(path, 'wb')] or [open(path, 'w')]: the file is created or
    emptied; the canonical path is handed on for the writes. *)
Definition open_truncate (path : pystr) : M pystr :=
  match os_realpath path with
  | inl e => raise e
  | inr p =>
      w <- get_world ;;
      put_world (write_file p [] w) ;;;
      ret p
  end.

(** [open(path, 'a')]: the file is created when missing and kept
    otherwise. *)
Definition open_append (path : pystr) : M pystr :=
  match os_realpath path with
  | inl e => raise e
  | inr p =>
      w <- get_world ;;
      put_world (write_file p (default [] (fs w !! p)) w) ;;;
      ret p
  end.

(** A write at the end of an open file. *)
Definition write_end (p : pystr) (data : bytes) : M unit :=
  w <- get_world ;;
  put_world (write_file p (default [] (fs w !! p) ++ data) w).

(** [csv.writer(f).writerow(r)] on the file open at [p]. *)
Definition writerow (p : pystr) (r : row) : M unit :=
  match csv_writerow r with
  | inl e => raise e
  | inr line => write_end p line
  end.

(** ** The picture, from the file to the array *)

(** [Image.open(path)]: the file is opened and identified; the pixels stay
    to be read. *)
Definition Image_open (image_path : pystr) : M (exn + image) :=
  data <- read_file image_path ;;
  match Image_decode data with
  | Unidentified => raise UnidentifiedImageError
  | Damaged e => ret (inl e)
  | Decoded img => ret (inr img)
  end.

(** [ImageOps.grayscale(img)]: the pixels are read here. *)
Definition ImageOps_grayscale (img : exn + image) : M gray :=
  match img with
  | inl e => raise e
  | inr pixels => ret (grayscale pixels)
  end.

Definition preprocess_image (image_path : pystr) : M gray :=
  img <- Image_open image_path ;;
  img <- ImageOps_grayscale img ;;
  let cv_img := img in
  let '(_, thresholded_img) := threshold_otsu cv_img 255 in
  let denoised_img := medianBlur thresholded_img in
  let processed_pil_img := denoised_img in
  ret processed_pil_img.

(** ** The Flask routes *)

Inductive http_method : Type := GET | POST | HEAD.

Record FileStorage : Type := mkFile {
  filename : pystr;
  stream : bytes
}.

(** [request.files] is a multi-dict: a lookup takes the first entry of a
    key. *)
Record Request : Type := mkRequest {
  method : http_method;
  files : list (pystr * FileStorage);
  url : pystr
}.

Inductive response : Type :=
  | redirect (location : pystr)
  | render_upload
  | render_result (filename : pystr) (amount : option float)
                  (date : option pystr) (extracted_text : pystr)
  | render_expenses (expenses : list row).

Definition str_eqb (a b : pystr) : bool := bool_decide (a = b).

Fixpoint files_get (key : pystr) (l : list (pystr * FileStorage))
  : option FileStorage :=
  match l with
  | [] => None
  | (k, f) :: rest => if str_eqb k key then Some f else files_get key rest
  end.

(** [file.save(dst)]: [dst] is opened for writing and the upload copied
    into it. *)
Definition file_save (file : FileStorage) (dst : pystr) : M unit :=
  p <- open_truncate dst ;;
  write_end p (stream file).

(** [pytesseract.image_to_string(img, lang=...)]. *)
Definition ocr (img : gray) (lang : string) : M pystr :=
  match image_to_string img lang with
  | inl e => raise e
  | inr text => ret text
  end.

(** [str.strip()]: the characters for which [str.isspace] holds are dropped
    at both ends. *)
Definition isspace (c : pychar) : bool :=
  (((9 <=? c) && (c <=? 13)) || ((28 <=? c) && (c <=? 32))
   || (c =? 133) || (c =? 160) || (c =? 5760)
   || ((8192 <=? c) && (c <=? 8202))
   || (c =? 8232) || (c =? 8233) || (c =? 8239) || (c =? 8287)
   || (c =? 12288))%N.

Fixpoint lstrip (s : pystr) : pystr :=
  match s with
  | [] => []
  | c :: rest => if isspace c then lstrip rest else s
  end.

Definition strip (s : pystr) : pystr := rev (lstrip (rev (lstrip s))).

(** What [csv.writer] writes for a cell: [None] is the empty string, a
    float its [repr]. *)
Definition cell_of_amount (amount : option float) : pystr :=
  match amount with
  | None => []
  | Some a => float_repr a
  end.

Definition cell_of_str (s : option pystr) : pystr :=
  match s with
  | None => []
  | Some x => x
  end.

(** [with open(RESULTS_FILE, 'a', ...) as f: csv.writer(f).writerow(r)]:
    the record is added after the last byte of the file, whatever that
    byte is. *)
Definition append_row (r : row) : M unit :=
  p <- open_append RESULTS_FILE ;;
  writerow p r.

(** Module start-up: the ledger is created with its header when
    [os.path.exists] does not find it. *)
Definition init_results_file : M unit :=
  found <- os_path_exists RESULTS_FILE ;;
  if negb found then
    p <- open_truncate RESULTS_FILE ;;
    writerow p header_row
  else ret tt.

Definition upload_file (request : Request) : M response :=
  match method request with
  | POST =>
      match files_get (py "file") (files request) with
      | None => ret (redirect (url request))
      | Some file =>
          if str_eqb (filename file) [] then ret (redirect (url request))
          else if negb (str_eqb (filename file) []) then
            let filename := filename file in
            let filepath := os_path_join UPLOAD_FOLDER filename in
            file_save file filepath ;;;
            processed_img <- preprocess_image filepath ;;
            extracted_text <- ocr processed_img "eng+tha" ;;
            r <- extract_amount_and_date extracted_text ;;
            let '(amount, date) := r in
            append_row [filename; cell_of_amount amount; cell_of_str date;
                        strip extracted_text] ;;;
            ret (render_result filename amount date (strip extracted_text))
          else ret render_upload
      end
  | _ => ret render_upload
  end.

(** The reading loop of [view_expenses]. *)
Definition collect (reader : list row) : list row :=
  fold_left (fun expenses r => expenses ++ [r]) reader [].

(** [next(reader)], then the loop over what is left: an error of the
    reader comes after the records it yielded before it. *)
Definition read_expenses (data : bytes) : M (list row) :=
  let '(records, failure) := csv_reader data in
  match records with
  | [] => raise (default StopIteration failure)
  | header :: rest =>
      match failure with
      | Some e => raise e
      | None => ret (collect rest)
      end
  end.

Definition view_expenses : M response :=
  found <- os_path_exists RESULTS_FILE ;;
  if (found : bool) then
    data <- read_file RESULTS_FILE ;;
    expenses <- read_expenses data ;;
    ret (render_expenses expenses)
  else ret (render_expenses []).

End App.

(** ** A small instance of the libraries and the system, to run the program

    Pictures are stored as a width byte followed by the intensities of the
    pixels, row after row, and a body that does not fill its rows is
    damaged; a float is kept as its decimal literal; no date parses; the OCR
    engine reads nothing; paths are joined with a slash.  The working
    directory holds [expenses.csv] and the folder [uploads], which has no
    folder of its own.  The [csv] functions are those of
    records whose cells are plain ASCII without commas, quotes or line
    breaks; the writer answers an error for any other cell. *)

Fixpoint chunks (fuel : nat) (n : nat) (l : list byte) : list (list byte) :=
  match fuel, l with
  | S fuel', _ :: _ => firstn n l :: chunks fuel' n (skipn n l)
  | _, _ => []
  end.

Definition demo_decode (data : bytes) : decoded :=
  match data with
  | [] => Unidentified
  | b :: body =>
      let n := Byte.to_nat b in
      if (n =? 0)%nat then Unidentified
      else if ((0 <? length body)%nat && (length body mod n =? 0)%nat)%bool
      then Decoded (List.map
                      (List.map (fun v => PxL (Z.of_nat (Byte.to_nat v))))
                      (chunks (length body) n body))
      else Damaged (OSError "image file is truncated")
  end.

Definition is_decimal (s : pystr) : bool :=
  (negb (str_eqb s [])
   && forallb (fun c => ((48 <=? c) && (c <=? 57) || (c =? 46))%N) s)%bool.

(** A path below [uploads/], its leading [./] dropped. *)
Fixpoint drop_dot_slash (fuel : nat) (name : pystr) : pystr :=
  match fuel, name with
  | S fuel', 46%N :: 47%N :: rest => drop_dot_slash fuel' rest
  | _, _ => name
  end.

Definition demo_realpath (path : pystr) : exn + pystr :=
  if str_eqb path (py "expenses.csv") then inr (py "expenses.csv")
  else if str_eqb (firstn 8 path) (py "uploads/") then
    let name := drop_dot_slash (length path) (skipn 8 path) in
    if str_eqb name (py "../expenses.csv") then inr (py "expenses.csv")
    else if existsb (fun c => (c =? 0)%N) name then inl ValueError
    else if existsb (fun c => (c =? 47)%N) name then inl FileNotFoundError
    else if (str_eqb name [] || str_eqb name (py ".")
             || str_eqb name (py ".."))%bool then inl IsADirectoryError
    else inr (py "uploads/" ++ name)
  else inl FileNotFoundError.

Definition is_plain (c : pychar) : bool :=
  ((32 <=? c) && (c <? 127) && negb (c =? 44) && negb (c =? 34))%N.

(** Cells joined by commas. *)
Fixpoint join_cells (r : row) : pystr :=
  match r with
  | [] => []
  | [cell] => cell
  | cell :: rest => cell ++ 44%N :: join_cells rest
  end.

Definition to_bytes (text : pystr) : bytes :=
  List.map (fun c => default "000"%byte (Byte.of_N c)) text.

Definition demo_writerow (r : row) : exn + bytes :=
  if forallb (forallb is_plain) r
  then inr (to_bytes (join_cells r ++ [13%N; 10%N]))
  else inl (csv_Error "cell outside the small instance").

(** The record that ends where a line does; a line with nothing on it is
    the empty record. *)
Definition close_record (cell : pystr) (record : row) : row :=
  match cell, record with
  | [], [] => []
  | _, _ => rev (rev cell :: record)
  end.

Fixpoint demo_records (text : pystr) (cell : pystr) (record : row)
  : list row :=
  match text with
  | [] =>
      match cell, record with
      | [], [] => []
      | _, _ => [close_record cell record]
      end
  | 13%N :: 10%N :: rest => close_record cell record :: demo_records rest [] []
  | 13%N :: rest => close_record cell record :: demo_records rest [] []
  | 10%N :: rest => close_record cell record :: demo_records rest [] []
  | 44%N :: rest => demo_records rest [] (rev cell :: record)
  | c :: rest => demo_records rest (c :: cell) record
  end.

Definition demo_reader (data : bytes) : list row * option exn :=
  let text := List.map Byte.to_N data in
  if forallb (fun c => (c <? 128)%N) text
  then (demo_records text [] [], None)
  else ([], Some UnicodeDecodeError).

Definition demo_libs : Libraries := {|
  float := pystr;
  float_of_str := fun s => if is_decimal s then Some s else None;
  float_repr := fun a => a;
  datetime := unit;
  strptime := fun _ _ => None;
  strftime := fun _ _ => [];
  Image_decode := demo_decode;
  otsu_level := fun _ => 127;
  image_to_string := fun _ _ => inr [];
  os_path_join := fun a b => a ++ py "/" ++ b;
  os_realpath := demo_realpath;
  os_path_exists_unopenable := fun _ => false;
  csv_writerow := demo_writerow;
  csv_reader := demo_reader
|}.

(** A 3x2 picture, and a file that is no picture. *)
Definition demo_picture : bytes :=
  ["003"; "010"; "200"; "255"; "090"; "130"; "000"]%byte.

(** The ledger as start-up writes it. *)
Definition header_line : bytes :=
  to_bytes (py "Filename,Amount,Date,Extracted_Text" ++ [13%N; 10%N]).

Definition demo_world : World :=
  {| fs := {[ py "uploads/slip.png" := demo_picture;
              py "uploads/notes.txt" := [];
              py "expenses.csv" := header_line ]} |}.

(** ** Serving requests

    The two routes, and the server that answers one request after another:
    a request whose handler raises is answered by an error page and the next
    one finds the world as the failed one left it. *)

Section Serving.
Context {libs : Libraries}.

Inductive call : Type :=
  | CallUpload (request : Request)      (* [/] *)
  | CallExpenses.                       (* [/expenses] *)

Definition handle (c : call) : M response :=
  match c with
  | CallUpload request => upload_file request
  | CallExpenses => view_expenses
  end.

Fixpoint serve (calls : list call) (w : World) : World :=
  match calls with
  | [] => w
  | c :: rest => serve rest (snd (handle c w))
  end.

(** The request saves its upload into the file of canonical path [q]. *)
Definition saves_into (c : call) (q : pystr) : Prop :=
  match c with
  | CallUpload request =>
      exists file,
        files_get (py "file") (files request) = Some file
        /\ os_realpath (os_path_join UPLOAD_FOLDER (filename file)) = inr q
  | CallExpenses => False
  end.

(** The pixels of the 3x3 neighbourhood of [(y, x)] that Otsu's level puts
    on the bright side. *)
Definition bright_neighbours (a : gray) (y x : Z) : nat :=
  length (List.filter (fun v => otsu_level a <? v) (window a y x)).

(** The error that reading a file as a picture ends in, if it does. *)
Definition decode_error (data : bytes) : option exn :=
  match Image_decode data with
  | Unidentified => Some UnidentifiedImageError
  | Damaged e => Some e
  | Decoded _ => None
  end.

End Serving.

(** ** Vocabulary of the properties *)

(** [m] yields the same outcome in every world and changes none. *)
Definition pure_comp {A} (m : M A) : Prop :=
  exists r, forall w, m w = (r, w).

(** The error [re] raises for a pattern that ends in a backslash. *)
Definition bad_escape : exn := re_error "bad escape (end of pattern)" 0.

(** A value of a two-level picture. *)
Definition two_valued (v : Z) : Prop := v = 0 \/ v = 255.

Definition binary (a : gray) : Prop := Forall (Forall two_valued) a.

(** [h] rows of [wd] pixels each. *)
Definition rectangular {A} (h wd : nat) (a : list (list A)) : Prop :=
  length a = h /\ Forall (fun r => length r = wd) a.

(** *** What normalising a picture is to give, pixel by pixel

    Stated on the decoded picture itself, apart from the functions that
    compute it: the gray level of a pixel is its level in mode [L] and the
    ITU-R 601-2 luma of its colours otherwise, in the 16-bit fixed point of
    PIL; a place off the picture takes the nearest pixel of the picture; a
    pixel of the result is white when most of the nine places around it are
    brighter than the level, black otherwise. *)

Definition gray_level (p : pixel) : Z :=
  match p with
  | PxL v => v
  | PxRGB r g b | PxRGBA r g b _ =>
      (19595 * r + 38470 * g + 7471 * b + 32768) / 65536
  end.

Definition nearest (n : nat) (i : Z) : nat :=
  Z.to_nat (Z.min (Z.max i 0) (Z.of_nat n - 1)).

Definition gray_near (img : image) (h wd : nat) (y x : Z) : Z :=
  gray_level (nth (nearest wd x) (nth (nearest h y) img []) (PxL 0)).

Definition around : list (Z * Z) :=
  [(-1, -1); (-1, 0); (-1, 1); (0, -1); (0, 0); (0, 1); (1, -1); (1, 0);
   (1, 1)].

Definition brighter_around (img : image) (h wd : nat) (level : Z) (y x : Z)
  : nat :=
  length (List.filter
            (fun d : Z * Z =>
               level <? gray_near img h wd (y + fst d) (x + snd d))
            around).

Definition majority_level (img : image) (h wd : nat) (level : Z) (y x : Z)
  : Z :=
  if (5 <=? brighter_around img h wd level y x)%nat then 255 else 0.

(** Texts an OCR run can produce. *)
Definition text_with_amount : pystr := py "Total 123.45 THB".
Definition text_without_amount : pystr := py "no amount on this slip".
Definition text_thai_date : pystr :=
  py "15 " ++ [3617; 3637; 46; 3588; 46]%N ++ py " 2567".
Definition text_slash_date : pystr := py "15/03/2024".

(** Requests and worlds to run the routes on. *)
Definition post_without_file : Request :=
  {| method := POST; files := []; url := py "http://localhost:5000/" |}.

Definition post_named (name : string) (data : bytes) : Request :=
  {| method := POST;
     files := [(py "file", {| filename := py name; stream := data |})];
     url := py "http://localhost:5000/" |}.

(** A file that is no picture; a picture; a picture cut short; an upload
    that cannot be saved; one whose name leads to the ledger. *)
Definition post_notes : Request := post_named "notes.txt" [].
Definition post_slip : Request := post_named "slip.png" demo_picture.
Definition post_cut : Request :=
  post_named "cut.png" ["003"; "010"; "200"]%byte.
Definition post_onto_ledger : Request := post_named "../expenses.csv" [].

(** No file at all. *)
Definition fresh_world : World := {| fs := empty |}.

(** The ledger file exists and is empty. *)
Definition empty_ledger : World := {| fs := {[ py "expenses.csv" := [] ]} |}.

(** A ledger with its header and two records. *)
Definition two_slips : World :=
  {| fs := {[ py "expenses.csv" :=
                header_line
                ++ to_bytes (py "a.png,120.0,,Total 120.00" ++ [13; 10]%N)
                ++ to_bytes (py "b.png,,,unreadable" ++ [13; 10]%N) ]} |}.

(** A call that saves nowhere, or into a file other than the given one. *)
Ltac no_save_into :=
  first
    [ apply List.Forall_nil
    | intros [file [Hfile Hpath]]; vm_compute in Hfile; inversion Hfile;
      subst file; vm_compute in Hpath; discriminate Hpath
    | intros H; exact H ].

(** * Properties *)

Section Properties.
Context {libs : Libraries}.

(** ** The one-character patterns of [re], on sample texts *)

Example search_literal_ignores_case w :
  re_search 100%N (py "abc 123.45 D{}") true w
  = (Return (Some (char_match (py "abc 123.45 D{}") 11 12)), w).
Proof. reflexivity. Qed.

Example search_dot_skips_newline w :
  re_search 46%N [10; 97]%N true w
  = (Return (Some (char_match [10; 97]%N 1 2)), w).
Proof. reflexivity. Qed.

Example search_closing_bracket_absent w :
  re_search 93%N (py "abc 123.45") true w = (Return None, w).
Proof. reflexivity. Qed.

Example search_open_bracket_rejected text w :
  re_search 91%N text true w
  = (Raise (re_error "unterminated character set" 0), w).
Proof. reflexivity. Qed.

Example group_one_of_char_match text s e w :
  group (char_match text s e) 1 w = (Raise (IndexError "no such group"), w).
Proof. reflexivity. Qed.

(** ** Running a sequence *)

Lemma bind_return {A B} (m : M A) (k : A -> M B) w a w' :
  m w = (Return a, w') -> bind m k w = k a w'.
Proof. intros Hm. unfold bind. now rewrite Hm. Qed.

Lemma bind_raise {A B} (m : M A) (k : A -> M B) w e w' :
  m w = (Raise e, w') -> bind m k w = (Raise e, w').
Proof. intros Hm. unfold bind. now rewrite Hm. Qed.

(** ** Computations that leave the world alone *)

Lemma pure_ret {A} (a : A) : pure_comp (ret a).
Proof. exists (Return a). reflexivity. Qed.

Lemma pure_raise {A} (e : exn) : pure_comp (@raise A e).
Proof. exists (Raise e). reflexivity. Qed.

Lemma pure_bind {A B} (m : M A) (k : A -> M B) :
  pure_comp m -> (forall a, pure_comp (k a)) -> pure_comp (bind m k).
Proof.
  intros [r Hm] Hk. destruct r as [a | e].
  - destruct (Hk a) as [r' Hr']. exists r'. intros w.
    unfold bind. rewrite Hm. apply Hr'.
  - exists (Raise e). intros w. unfold bind. now rewrite Hm.
Qed.

Lemma pure_re_search pattern text flag : pure_comp (re_search pattern text flag).
Proof.
  unfold re_search. destruct (sre_parse_char pattern);
    [apply pure_ret | apply pure_raise].
Qed.

Lemma pure_group m k : pure_comp (group m k).
Proof.
  destruct k as [| j]; simpl; [apply pure_ret |].
  destruct (nth_error (m_groups m) j); [apply pure_ret | apply pure_raise].
Qed.

Lemma pure_replace_commas g : pure_comp (replace_commas g).
Proof. destruct g; [apply pure_ret | apply pure_raise]. Qed.

Lemma pure_py_float s : pure_comp (py_float s).
Proof.
  unfold py_float. destruct (float_of_str s); [apply pure_ret | apply pure_raise].
Qed.

Lemma pure_normalise_date g : pure_comp (normalise_date g).
Proof.
  destruct g as [s |]; simpl; [| apply pure_raise].
  destruct (strptime s _); [apply pure_ret |].
  destruct (strptime s _); apply pure_ret.
Qed.

Lemma pure_amount_loop patterns text amount :
  pure_comp (amount_loop patterns text amount).
Proof.
  induction patterns as [| pattern rest IH]; cbn [amount_loop];
    [apply pure_ret |].
  apply pure_bind; [apply pure_re_search |].
  intros [mt |]; [| exact IH].
  apply pure_bind; [apply pure_group | intros g].
  apply pure_bind; [apply pure_replace_commas | intros s].
  apply pure_bind; [apply pure_py_float | intros a; apply pure_ret].
Qed.

Lemma pure_date_loop patterns text date :
  pure_comp (date_loop patterns text date).
Proof.
  induction patterns as [| pattern rest IH]; cbn [date_loop];
    [apply pure_ret |].
  apply pure_bind; [apply pure_re_search |].
  intros [mt |]; [| exact IH].
  apply pure_bind; [apply pure_group | apply pure_normalise_date].
Qed.

Lemma pure_extract text : pure_comp (extract_amount_and_date text).
Proof.
  unfold extract_amount_and_date.
  apply pure_bind; [apply pure_amount_loop | intros amount].
  apply pure_bind; [apply pure_date_loop | intros date; apply pure_ret].
Qed.

(** ** The first pattern the amount loop compiles *)

(** The first element of [amount_patterns] is a backslash, which [re]
    rejects before it looks at the text. *)
Lemma amount_loop_raises text amount w :
  amount_loop amount_patterns text amount w = (Raise bad_escape, w).
Proof. reflexivity. Qed.

Lemma extract_raises text w :
  extract_amount_and_date text w = (Raise bad_escape, w).
Proof.
  unfold extract_amount_and_date, bind. now rewrite amount_loop_raises.
Qed.

(** ** The extraction, as the program runs it *)

(** C1 (the code departs from the claim): on every text, the empty one
    included, [extract_amount_and_date] raises [re.error] at the first
    pattern it compiles, and so returns no amount-date pair. *)
Theorem extract_amount_and_date_raises text w :
  extract_amount_and_date text w = (Raise bad_escape, w).
Proof. apply extract_raises. Qed.

(** C2 (the code departs from the claim): on a text that holds [123.45] the
    extraction raises [re.error]; no amount is returned. *)
Theorem extract_amount_present_raises w :
  extract_amount_and_date text_with_amount w = (Raise bad_escape, w).
Proof. apply extract_raises. Qed.

(** C3 (the code departs from the claim): on a text with no
    three-digits-point-two-digits substring the extraction raises
    [re.error] where an absent amount was to be returned. *)
Theorem extract_amount_absent_raises w :
  extract_amount_and_date text_without_amount w = (Raise bad_escape, w)
  /\ forall date,
       extract_amount_and_date text_without_amount w <> (Return (None, date), w).
Proof.
  split; [apply extract_raises |].
  intros date. rewrite extract_raises. discriminate.
Qed.

(** C4 (the code departs from the claim): on a text that holds a date with a
    Thai month the extraction raises [re.error]; the date loop is never
    reached and no date is returned. *)
Theorem extract_thai_date_raises w :
  extract_amount_and_date text_thai_date w = (Raise bad_escape, w)
  /\ forall amount,
       extract_amount_and_date text_thai_date w
       <> (Return (amount, Some text_thai_date), w).
Proof.
  split; [apply extract_raises |].
  intros amount. rewrite extract_raises. discriminate.
Qed.

(** C5 (the code departs from the claim): on a text whose only date is a
    slash date the extraction raises [re.error] where an absent date was to
    be returned. *)
Theorem extract_slash_date_raises w :
  extract_amount_and_date text_slash_date w = (Raise bad_escape, w)
  /\ forall amount,
       extract_amount_and_date text_slash_date w <> (Return (amount, None), w).
Proof.
  split; [apply extract_raises |].
  intros amount. rewrite extract_raises. discriminate.
Qed.

(** C8: two runs of [extract_amount_and_date] on one text have the same
    outcome, whatever the world each run starts in, and a run leaves the
    world as it found it. *)
Theorem extract_amount_and_date_deterministic text w w' :
  fst (extract_amount_and_date text w) = fst (extract_amount_and_date text w')
  /\ snd (extract_amount_and_date text w) = w.
Proof.
  destruct (pure_extract text) as [r Hr]. rewrite !Hr. now split.
Qed.

(** ** Shape and values of the normalised picture *)

Lemma binary_px (a : gray) y x : binary a -> two_valued (px a y x).
Proof.
  unfold binary. intros Ha. unfold px.
  destruct (nth_in_or_default (clamp (height a) y) a []) as [Hrow | ->].
  - rewrite List.Forall_forall in Ha. specialize (Ha _ Hrow).
    destruct (nth_in_or_default (clamp (width a) x)
                (nth (clamp (height a) y) a []) 0) as [Hv | ->].
    + rewrite List.Forall_forall in Ha. now apply Ha.
    + now left.
  - destruct (clamp (width a) x); now left.
Qed.

Lemma binary_window (a : gray) y x :
  binary a -> Forall two_valued (window a y x).
Proof.
  intros Ha. unfold window. simpl.
  repeat (apply List.Forall_cons; [now apply binary_px |]).
  apply List.Forall_nil.
Qed.

(** The median is an element of the window (or 0 for an empty one). *)
Lemma median_two_valued (l : list Z) :
  Forall two_valued l -> two_valued (median l).
Proof.
  intros Hl. unfold median.
  destruct (nth_in_or_default (length l / 2) (merge_sort Z.le l) 0)
    as [Hin | ->]; [| now left].
  rewrite List.Forall_forall in Hl. apply Hl.
  apply (Permutation_in _ (merge_sort_Permutation Z.le l)) in Hin.
  exact Hin.
Qed.

Lemma medianBlur_binary (a : gray) : binary a -> binary (medianBlur a).
Proof.
  intros Ha. unfold medianBlur, binary.
  apply List.Forall_map, List.Forall_forall. intros y _.
  apply List.Forall_map, List.Forall_forall. intros x _.
  apply median_two_valued, binary_window, Ha.
Qed.

Lemma threshold_binary (a : gray) : binary (snd (threshold_otsu a 255)).
Proof.
  unfold threshold_otsu, binary. simpl.
  apply List.Forall_map, List.Forall_forall. intros r _.
  apply List.Forall_map, List.Forall_forall. intros v _.
  unfold two_valued. destruct (otsu_level a <? v); [now right | now left].
Qed.

Lemma rectangular_map {A B} (f : A -> B) h wd (a : list (list A)) :
  rectangular h wd a -> rectangular h wd (List.map (List.map f) a).
Proof.
  intros [Hh Hw]. split.
  - now rewrite length_map.
  - apply List.Forall_map. eapply List.Forall_impl; [| exact Hw].
    intros r Hr. simpl. now rewrite length_map.
Qed.

Lemma medianBlur_rectangular h wd (a : gray) :
  rectangular h wd a -> rectangular h wd (medianBlur a).
Proof.
  intros [Hh Hw]. unfold medianBlur, height, width. split.
  - now rewrite length_map, length_seq.
  - apply List.Forall_map, List.Forall_forall. intros y Hy. simpl.
    rewrite length_map, length_seq.
    destruct a as [| r a']; [apply in_seq in Hy; simpl in Hy; lia |].
    simpl. now inversion Hw.
Qed.

(** ** What the two loops can return *)

Lemma sre_search_no_group n flag text mt :
  sre_search n flag text = Some mt -> m_groups mt = [].
Proof.
  destruct n; simpl; intros H;
    repeat match type of H with
           | context [match ?x with _ => _ end] => destruct x
           end;
    inversion H; reflexivity.
Qed.

(** A match of a one-character pattern has no group 1 to give. *)
Lemma group_one_raises n flag text mt w :
  sre_search n flag text = Some mt ->
  group mt 1 w = (Raise (IndexError "no such group"), w).
Proof.
  intros H. unfold group. now rewrite (sre_search_no_group _ _ _ _ H).
Qed.

(** Run by itself, the date loop raises [re.error] on every text: the
    first character of [date_patterns] is a backslash too. *)
Lemma date_loop_raises text date w :
  date_loop date_patterns text date w = (Raise bad_escape, w).
Proof. reflexivity. Qed.

(** X1: over the characters of any pattern string, the amount loop raises or
    leaves the amount as it was: a character that matches leads to
    [group(1)], which a one-character pattern does not have. *)
Theorem amount_loop_never_sets patterns text amount w :
  amount_loop patterns text amount w = (Return amount, w)
  \/ exists e, amount_loop patterns text amount w = (Raise e, w).
Proof.
  induction patterns as [| pattern rest IH]; cbn [amount_loop].
  - now left.
  - unfold re_search.
    destruct (sre_parse_char pattern) as [n | e].
    + rewrite (bind_return _ _ w (sre_search n true text) w) by reflexivity.
      destruct (sre_search n true text) as [mt |] eqn:Hs; [| exact IH].
      right. exists (IndexError "no such group").
      apply bind_raise. now apply (group_one_raises n true text).
    + right. exists e. reflexivity.
Qed.

(** X2: over the characters of any pattern string, the date loop raises or
    leaves the date as it was, for the same reason. *)
Theorem date_loop_never_sets patterns text date w :
  date_loop patterns text date w = (Return date, w)
  \/ exists e, date_loop patterns text date w = (Raise e, w).
Proof.
  induction patterns as [| pattern rest IH]; cbn [date_loop].
  - now left.
  - unfold re_search.
    destruct (sre_parse_char pattern) as [n | e].
    + rewrite (bind_return _ _ w (sre_search n true text) w) by reflexivity.
      destruct (sre_search n true text) as [mt |] eqn:Hs; [| exact IH].
      right. exists (IndexError "no such group").
      apply bind_raise. now apply (group_one_raises n true text).
    + right. exists e. reflexivity.
Qed.


(** ** Files *)

Lemma write_file_twice p a b w :
  write_file p b (write_file p a w) = write_file p b w.
Proof. unfold write_file. simpl. now rewrite insert_insert_eq. Qed.

Lemma read_file_found path p data w :
  os_realpath path = inr p -> fs w !! p = Some data ->
  read_file path w = (Return data, w).
Proof.
  intros Hp Hd. unfold read_file, bind, get_world. now rewrite Hp, Hd.
Qed.

Lemma read_file_world path w : snd (read_file path w) = w.
Proof.
  unfold read_file, bind, get_world.
  destruct (os_realpath path) as [e | p]; [reflexivity |].
  destruct (fs w !! p); reflexivity.
Qed.

Lemma file_save_done file dst p w :
  os_realpath dst = inr p ->
  file_save file dst w = (Return tt, write_file p (stream file) w).
Proof.
  intros Hp. unfold file_save, open_truncate, write_end.
  rewrite Hp. unfold bind, get_world, put_world, ret. simpl.
  rewrite lookup_insert_eq. simpl. now rewrite write_file_twice.
Qed.

Lemma file_save_refused file dst e w :
  os_realpath dst = inl e -> file_save file dst w = (Raise e, w).
Proof.
  intros Hp. unfold file_save, open_truncate. now rewrite Hp.
Qed.

(** ** From the file to the array *)

(** The array [preprocess_image] computes from a decoded picture. *)
Lemma preprocess_image_outcome image_path w :
  preprocess_image image_path w
  = (match os_realpath image_path with
     | inl e => Raise e
     | inr p =>
         match fs w !! p with
         | None => Raise FileNotFoundError
         | Some data =>
             match Image_decode data with
             | Unidentified => Raise UnidentifiedImageError
             | Damaged e => Raise e
             | Decoded img =>
                 Return (medianBlur (snd (threshold_otsu (grayscale img) 255)))
             end
         end
     end, w).
Proof.
  unfold preprocess_image, Image_open, read_file, bind, get_world.
  destruct (os_realpath image_path) as [e | p]; [reflexivity |].
  destruct (fs w !! p) as [data |]; [| reflexivity].
  unfold ret at 1. cbv iota beta.
  destruct (Image_decode data); reflexivity.
Qed.

Lemma preprocess_image_decodes image_path p data img w :
  os_realpath image_path = inr p ->
  fs w !! p = Some data ->
  Image_decode data = Decoded img ->
  preprocess_image image_path w
  = (Return (medianBlur (snd (threshold_otsu (grayscale img) 255))), w).
Proof.
  intros Hp Hfile Hdec. rewrite preprocess_image_outcome.
  now rewrite Hp, Hfile, Hdec.
Qed.

Lemma preprocess_image_undecodable image_path p data e w :
  os_realpath image_path = inr p ->
  fs w !! p = Some data ->
  decode_error data = Some e ->
  preprocess_image image_path w = (Raise e, w).
Proof.
  intros Hp Hfile Hdec. rewrite preprocess_image_outcome.
  rewrite Hp, Hfile. unfold decode_error in Hdec.
  destruct (Image_decode data); inversion Hdec; reflexivity.
Qed.
(** ** Which pixels come out white *)

Lemma clamp_lt n i : (0 < n)%nat -> (clamp n i < n)%nat.
Proof. unfold clamp. lia. Qed.

Lemma width_map (f : Z -> Z) (a : gray) :
  width (List.map (List.map f) a) = width a.
Proof. destruct a; unfold width; simpl; [reflexivity | apply length_map]. Qed.

(** Inside a picture, a pixel of the mapped array is the mapped pixel. *)
Lemma px_map (f : Z -> Z) h wd (a : gray) y x :
  rectangular h wd a -> (0 < h)%nat -> (0 < wd)%nat ->
  px (List.map (List.map f) a) y x = f (px a y x).
Proof.
  intros [Hh Hw] Hpos Hwpos. unfold px, height.
  rewrite width_map, length_map.
  change (@nil Z) with (List.map f []) at 1. rewrite map_nth.
  assert (Hrow : length (nth (clamp (length a) y) a []) = wd).
  { rewrite List.Forall_forall in Hw. apply Hw, nth_In.
    rewrite Hh. now apply clamp_lt. }
  assert (Hwd : width a = wd).
  { destruct a as [| r a']; [simpl in Hh; lia |].
    unfold width. simpl. now inversion Hw. }
  rewrite (nth_indep _ 0 (f 0)).
  - apply map_nth.
  - rewrite length_map, Hrow, Hwd. now apply clamp_lt.
Qed.

Lemma window_map (f : Z -> Z) h wd (a : gray) y x :
  rectangular h wd a -> (0 < h)%nat -> (0 < wd)%nat ->
  window (List.map (List.map f) a) y x = List.map f (window a y x).
Proof.
  intros Hr Hh Hw. unfold window. simpl.
  now rewrite !(px_map f h wd a _ _ Hr Hh Hw).
Qed.

(** The median of nine two-level values is the level of the majority. *)
Lemma median_majority (bs : list bool) :
  length bs = 9%nat ->
  median (List.map (fun b : bool => if b then 255 else 0) bs)
  = if (5 <=? length (List.filter (fun b => b) bs))%nat then 255 else 0.
Proof.
  intros Hlen.
  do 9 (destruct bs as [| ? bs]; [discriminate Hlen |]).
  destruct bs; [| discriminate Hlen].
  repeat match goal with b : bool |- _ => destruct b end;
    vm_compute; reflexivity.
Qed.

Lemma filter_map_length {A} (p : A -> bool) (l : list A) :
  length (List.filter (fun b => b) (List.map p l)) = length (List.filter p l).
Proof.
  induction l as [| a l IH]; simpl; [reflexivity |].
  destruct (p a); simpl; now rewrite IH.
Qed.

Lemma nth_map_seq {A} (g : nat -> A) n i d :
  (i < n)%nat -> nth i (List.map g (seq 0 n)) d = g i.
Proof.
  intros Hi. rewrite (nth_indep _ d (g 0%nat)) by now rewrite length_map, length_seq.
  rewrite map_nth. now rewrite seq_nth.
Qed.


(** The pixel of the median of the binarised array. *)
Lemma normalised_pixel h wd (g : gray) y x :
  rectangular h wd g -> (y < h)%nat -> (x < wd)%nat ->
  nth x (nth y (medianBlur (snd (threshold_otsu g 255))) []) 0
  = if (5 <=? bright_neighbours g (Z.of_nat y) (Z.of_nat x))%nat
    then 255 else 0.
Proof.
  intros Hg Hy Hx.
  unfold threshold_otsu. cbn [snd].
  set (f := fun v => if otsu_level g <? v then 255 else 0).
  assert (Hthr : rectangular h wd (List.map (List.map f) g))
    by now apply rectangular_map.
  unfold medianBlur.
  assert (Hheight : height (List.map (List.map f) g) = h) by apply Hthr.
  assert (Hwidth : width (List.map (List.map f) g) = wd).
  { rewrite width_map. destruct Hg as [Hl Hw].
    destruct g as [| r g']; [simpl in Hl; lia |].
    unfold width. simpl. now inversion Hw. }
  rewrite Hheight, Hwidth.
  rewrite (nth_map_seq _ h y) by exact Hy.
  rewrite (nth_map_seq _ wd x) by exact Hx.
  rewrite (window_map f h wd g) by (try exact Hg; lia).
  unfold bright_neighbours.
  rewrite <- (filter_map_length (fun v => otsu_level g <? v)).
  rewrite <- median_majority by (now rewrite length_map).
  reflexivity.
Qed.

(** *** The functions of the program against the pixel-by-pixel account *)

Lemma luma_gray_level p : luma p = gray_level p.
Proof.
  destruct p as [v | r g b | r g b a]; simpl; [reflexivity | |];
    rewrite Z.shiftr_div_pow2 by lia; f_equal; lia.
Qed.

Lemma grayscale_gray_level img :
  grayscale img = List.map (List.map gray_level) img.
Proof.
  unfold grayscale. apply map_ext. intros r. apply map_ext.
  apply luma_gray_level.
Qed.

Lemma clamp_nearest n i : clamp n i = nearest n i.
Proof. unfold clamp, nearest. lia. Qed.

Lemma px_gray_near h wd img y x :
  rectangular h wd img -> (0 < h)%nat ->
  px (grayscale img) y x = gray_near img h wd y x.
Proof.
  intros [Hh Hw] Hpos. unfold px, gray_near, height, width.
  assert (Hwd : length (hd [] (grayscale img)) = wd).
  { destruct img as [| r img']; [simpl in Hh; lia |].
    simpl. rewrite length_map. now inversion Hw. }
  rewrite Hwd. unfold grayscale at 1 2. rewrite length_map, Hh.
  rewrite !clamp_nearest.
  change (@nil Z) with (List.map luma (@nil pixel)). rewrite map_nth.
  change 0 with (luma (PxL 0)). rewrite map_nth.
  apply luma_gray_level.
Qed.

Lemma filter_length_map {A B} (p : B -> bool) (f : A -> B) (l : list A) :
  length (List.filter p (List.map f l))
  = length (List.filter (fun a => p (f a)) l).
Proof.
  induction l as [| a l IH]; simpl; [reflexivity |].
  destruct (p (f a)); simpl; now rewrite IH.
Qed.

Lemma bright_neighbours_around h wd img y x :
  rectangular h wd img -> (0 < h)%nat ->
  bright_neighbours (grayscale img) y x
  = brighter_around img h wd
      (otsu_level (List.map (List.map gray_level) img)) y x.
Proof.
  intros Hr Hpos. unfold bright_neighbours, brighter_around, window, around.
  rewrite <- grayscale_gray_level. cbn [flat_map List.map app fst snd].
  rewrite !(px_gray_near h wd img _ _ Hr Hpos).
  now rewrite <- (filter_length_map
                   (fun v => otsu_level (grayscale img) <? v)
                   (fun d : Z * Z => gray_near img h wd (y + fst d) (x + snd d))).
Qed.

(** C6: on a file that decodes to a picture of [h] rows and [wd] columns,
    [preprocess_image] raises nothing and returns the median filter of the
    Otsu binarisation of the grayscale picture; the result has [h] rows of
    [wd] single-channel pixels, each of them 0 or 255: white where most of
    the nine places around the pixel have a gray level above Otsu's level
    for the gray picture, black elsewhere. *)
Theorem preprocess_image_normalises image_path p data img h wd w :
  os_realpath image_path = inr p ->
  fs w !! p = Some data ->
  Image_decode data = Decoded img ->
  rectangular h wd img ->
  exists out,
    preprocess_image image_path w = (Return out, w)
    /\ out = medianBlur (snd (threshold_otsu (grayscale img) 255))
    /\ rectangular h wd out
    /\ binary out
    /\ forall y x, (y < h)%nat -> (x < wd)%nat ->
         nth x (nth y out []) 0
         = majority_level img h wd
             (otsu_level (List.map (List.map gray_level) img))
             (Z.of_nat y) (Z.of_nat x).
Proof.
  intros Hp Hfile Hdec Hrect.
  assert (Hg : rectangular h wd (grayscale img))
    by (unfold grayscale; now apply rectangular_map).
  exists (medianBlur (snd (threshold_otsu (grayscale img) 255))).
  split; [exact (preprocess_image_decodes _ _ _ _ _ Hp Hfile Hdec) |].
  split; [reflexivity |]. split; [| split].
  - apply medianBlur_rectangular. unfold threshold_otsu. simpl.
    now apply rectangular_map.
  - apply medianBlur_binary, threshold_binary.
  - intros y x Hy Hx. rewrite (normalised_pixel h wd) by assumption.
    unfold majority_level.
    now rewrite (bright_neighbours_around h wd) by (try assumption; lia).
Qed.

(** X4: on a picture that decodes, the pixel of the result at row [y] and
    column [x] is white exactly when at least five of the nine pixels
    around that place (border pixels repeated) are brighter than Otsu's
    level, and black otherwise. *)
Theorem preprocess_image_majority image_path p data img h wd w y x :
  os_realpath image_path = inr p ->
  fs w !! p = Some data ->
  Image_decode data = Decoded img ->
  rectangular h wd img ->
  (y < h)%nat -> (x < wd)%nat ->
  exists out,
    preprocess_image image_path w = (Return out, w)
    /\ nth x (nth y out []) 0
       = if (5 <=? bright_neighbours (grayscale img)
                     (Z.of_nat y) (Z.of_nat x))%nat
         then 255 else 0.
Proof.
  intros Hp Hfile Hdec Hrect Hy Hx.
  exists (medianBlur (snd (threshold_otsu (grayscale img) 255))).
  split; [exact (preprocess_image_decodes _ _ _ _ _ Hp Hfile Hdec) |].
  apply (normalised_pixel h wd); try assumption.
  unfold grayscale. now apply rectangular_map.
Qed.

(** X3: [preprocess_image] writes nothing, and it fails in four ways only:
    with the error of [open] when the path cannot be opened, with
    [FileNotFoundError] when the path holds no file, with
    [UnidentifiedImageError] when [Image.open] does not know the file, and
    with the error of the pixel reader when [ImageOps.grayscale] meets a
    damaged body. *)
Theorem preprocess_image_failures image_path w e :
  snd (preprocess_image image_path w) = w
  /\ (fst (preprocess_image image_path w) = Raise e
      <-> os_realpath image_path = inl e
          \/ exists p,
               os_realpath image_path = inr p
               /\ (fs w !! p = None /\ e = FileNotFoundError
                   \/ exists data,
                        fs w !! p = Some data
                        /\ (Image_decode data = Unidentified
                            /\ e = UnidentifiedImageError
                            \/ Image_decode data = Damaged e))).
Proof.
  rewrite preprocess_image_outcome. simpl. split; [reflexivity |].
  split.
  - intros H.
    destruct (os_realpath image_path) as [e0 | p]; [left; congruence |].
    right. exists p. split; [reflexivity |].
    destruct (fs w !! p) as [data |]; [| left; split; congruence].
    right. exists data. split; [reflexivity |].
    destruct (Image_decode data); [left; split; congruence | right |];
      congruence.
  - intros [H | [p [Hp [[Hn He] | [data [Hd [[Hu He] | Hdam]]]]]]].
    + now rewrite H.
    + now rewrite Hp, Hn, He.
    + now rewrite Hp, Hd, Hu, He.
    + now rewrite Hp, Hd, Hdam.
Qed.

(** ** The upload route, request by request *)

(** A POST that carries a named file: the save, then the picture, the OCR
    and the extraction, each of which may end the request. *)
Lemma upload_file_saved request file w :
  method request = POST ->
  files_get (py "file") (files request) = Some file ->
  filename file <> [] ->
  upload_file request w
  = match os_realpath (os_path_join UPLOAD_FOLDER (filename file)) with
    | inl e => (Raise e, w)
    | inr p =>
        (Raise
           (match Image_decode (stream file) with
            | Unidentified => UnidentifiedImageError
            | Damaged e => e
            | Decoded img =>
                match image_to_string
                        (medianBlur
                           (snd (threshold_otsu (grayscale img) 255)))
                        "eng+tha" with
                | inl e => e
                | inr _ => bad_escape
                end
            end),
         write_file p (stream file) w)
    end.
Proof.
  intros Hpost Hfile Hname. unfold upload_file. rewrite Hpost, Hfile.
  unfold str_eqb. rewrite bool_decide_eq_false_2 by exact Hname. simpl.
  set (filepath := os_path_join UPLOAD_FOLDER (filename file)).
  destruct (os_realpath filepath) as [e | p] eqn:Hp.
  - apply bind_raise. now apply file_save_refused.
  - set (saved := write_file p (stream file) w).
    rewrite (bind_return _ _ w tt saved) by now apply file_save_done.
    assert (Hlook : fs saved !! p = Some (stream file))
      by apply lookup_insert_eq.
    destruct (Image_decode (stream file)) as [| e | img] eqn:Hdec.
    + apply bind_raise.
      apply (preprocess_image_undecodable _ p (stream file)); try easy.
      unfold decode_error. now rewrite Hdec.
    + apply bind_raise.
      apply (preprocess_image_undecodable _ p (stream file)); try easy.
      unfold decode_error. now rewrite Hdec.
    + rewrite (bind_return _ _ saved _ saved
                 (preprocess_image_decodes _ _ _ _ _ Hp Hlook Hdec)).
      unfold ocr.
      destruct (image_to_string _ "eng+tha") as [e | text].
      * now apply bind_raise.
      * rewrite (bind_return _ _ saved text saved) by reflexivity.
        apply bind_raise, extract_raises.
Qed.

(** Every request to [/] is answered in one of four ways. *)
Lemma upload_file_cases request w :
  upload_file request w = (Return render_upload, w)
  \/ upload_file request w = (Return (redirect (url request)), w)
  \/ exists file e,
       files_get (py "file") (files request) = Some file
       /\ (upload_file request w = (Raise e, w)
           \/ exists p,
                os_realpath (os_path_join UPLOAD_FOLDER (filename file))
                = inr p
                /\ upload_file request w
                   = (Raise e, write_file p (stream file) w)).
Proof.
  destruct (method request) eqn:Hm;
    try (left; unfold upload_file; now rewrite Hm).
  destruct (files_get (py "file") (files request)) as [file |] eqn:Hfile.
  - destruct (decide (filename file = [])) as [Hname | Hname].
    + right; left. unfold upload_file. rewrite Hm, Hfile, Hname. reflexivity.
    + right; right. exists file.
      rewrite (upload_file_saved request file w Hm Hfile Hname).
      destruct (os_realpath _) as [e | p].
      * exists e. split; [reflexivity | now left].
      * eexists. split; [reflexivity |]. right. exists p. now split.
  - right; left. unfold upload_file. now rewrite Hm, Hfile.
Qed.


(** C9: a POST without a [file] part, or whose file has an empty name, is
    answered by a redirect to the request's URL; nothing is saved and no row
    is appended: the world is unchanged. *)
Theorem upload_without_file_redirects request w :
  method request = POST ->
  (files_get (py "file") (files request) = None
   \/ exists file, files_get (py "file") (files request) = Some file
                   /\ filename file = []) ->
  upload_file request w = (Return (redirect (url request)), w).
Proof.
  intros Hpost [Hnone | [file [Hfile Hname]]]; unfold upload_file;
    rewrite Hpost.
  - now rewrite Hnone.
  - rewrite Hfile, Hname. reflexivity.
Qed.


(** X6: no request to [/] reaches the CSV append or is answered by the
    result page: the world after the request is the world before it, or the
    world before it with the upload written into the file its path
    reaches. *)
Theorem upload_file_only_saves request w :
  (snd (upload_file request w) = w
   \/ exists file p,
        files_get (py "file") (files request) = Some file
        /\ os_realpath (os_path_join UPLOAD_FOLDER (filename file)) = inr p
        /\ snd (upload_file request w) = write_file p (stream file) w)
  /\ forall name amount date text,
       fst (upload_file request w)
       <> Return (render_result name amount date text).
Proof.
  destruct (upload_file_cases request w)
    as [H | [H | [file [e [Hfile [H | [p [Hp H]]]]]]]];
    rewrite H; simpl; (split; [| intros; discriminate]);
    try (now left).
  right. exists file, p. now repeat split.
Qed.

(** X7: a request to [/] leaves every file alone but the one its upload
    path reaches, under whatever spelling. *)
Theorem upload_file_frame request w q :
  (forall file, files_get (py "file") (files request) = Some file ->
                os_realpath (os_path_join UPLOAD_FOLDER (filename file))
                <> inr q) ->
  fs (snd (upload_file request w)) !! q = fs w !! q.
Proof.
  intros Hpath.
  destruct (upload_file_cases request w)
    as [H | [H | [file [e [Hfile [H | [p [Hp H]]]]]]]];
    rewrite H; simpl; try reflexivity.
  apply lookup_insert_ne. intros Heq. subst q. now apply (Hpath file Hfile).
Qed.


(** ** The ledger *)

Lemma os_path_exists_found path p w :
  os_realpath path = inr p ->
  os_path_exists path w = (Return (bool_decide (is_Some (fs w !! p))), w).
Proof.
  intros Hp. unfold os_path_exists, bind, get_world. now rewrite Hp.
Qed.

Lemma collect_app (reader acc : list row) :
  fold_left (fun expenses r => expenses ++ [r]) reader acc = acc ++ reader.
Proof.
  revert acc. induction reader as [| r rest IH]; intros acc; simpl.
  - now rewrite app_nil_r.
  - rewrite IH. now rewrite <- app_assoc.
Qed.

Lemma collect_all (reader : list row) : collect reader = reader.
Proof. unfold collect. now rewrite collect_app. Qed.

(** What [/expenses] answers, read off the ledger file. *)
Lemma view_expenses_answer l w :
  os_realpath RESULTS_FILE = inr l ->
  view_expenses w
  = (match fs w !! l with
     | None => Return (render_expenses [])
     | Some data =>
         match csv_reader data with
         | (header :: rows, None) => Return (render_expenses rows)
         | ([], None) => Raise StopIteration
         | (_, Some e) => Raise e
         end
     end, w).
Proof.
  intros Hl. unfold view_expenses.
  rewrite (bind_return _ _ w _ w (os_path_exists_found _ _ w Hl)).
  destruct (fs w !! l) as [data |] eqn:Hfile.
  - rewrite bool_decide_eq_true_2 by now eexists.
    rewrite (bind_return _ _ w data w) by now apply (read_file_found _ l).
    unfold read_expenses, bind.
    destruct (csv_reader data) as [[| header rows] [e |]]; simpl;
      try reflexivity.
    now rewrite collect_all.
  - rewrite bool_decide_eq_false_2; [reflexivity |].
    intros [x Hx]. discriminate Hx.
Qed.

Lemma read_expenses_world data w : snd (read_expenses data w) = w.
Proof.
  unfold read_expenses.
  destruct (csv_reader data) as [[| header rows] [e |]]; reflexivity.
Qed.

Lemma view_expenses_world w : snd (view_expenses w) = w.
Proof.
  unfold view_expenses, os_path_exists, bind, get_world.
  assert (Hread : forall k : bytes -> M response,
             (forall d v, snd (k d v) = v) ->
             snd (match read_file RESULTS_FILE w with
                  | (Return a, w') => k a w'
                  | (Raise e, w') => (Raise e, w')
                  end) = w).
  { intros k Hk. pose proof (read_file_world RESULTS_FILE w) as Hw.
    destruct (read_file RESULTS_FILE w) as [[a | e] w']; simpl in Hw;
      subst w'; [apply Hk | reflexivity]. }
  assert (Hk : forall d v,
             snd (match read_expenses d v with
                  | (Return a, w') => ret (render_expenses a) w'
                  | (Raise e, w') => (Raise e, w')
                  end) = v).
  { intros d v. pose proof (read_expenses_world d v) as Hw.
    destruct (read_expenses d v) as [[a | e] w']; exact Hw. }
  destruct (os_realpath RESULTS_FILE) as [e | l]; simpl.
  - destruct (os_path_exists_unopenable RESULTS_FILE); [| reflexivity].
    now apply Hread.
  - destruct (bool_decide (is_Some (fs w !! l))); [| reflexivity].
    now apply Hread.
Qed.

Lemma init_results_file_answer l w :
  os_realpath RESULTS_FILE = inr l ->
  init_results_file w
  = match fs w !! l with
    | Some _ => (Return tt, w)
    | None =>
        match csv_writerow header_row with
        | inl e => (Raise e, write_file l [] w)
        | inr line => (Return tt, write_file l line w)
        end
    end.
Proof.
  intros Hl. unfold init_results_file.
  rewrite (bind_return _ _ w _ w (os_path_exists_found _ _ w Hl)).
  destruct (fs w !! l) as [data |] eqn:Hfile.
  - rewrite bool_decide_eq_true_2 by now eexists. reflexivity.
  - rewrite bool_decide_eq_false_2 by (intros [x Hx]; discriminate Hx).
    simpl. unfold open_truncate. rewrite Hl.
    unfold bind, get_world, put_world, ret, writerow, write_end. simpl.
    destruct (csv_writerow header_row) as [e | line]; [reflexivity |].
    unfold bind, get_world, put_world. simpl.
    rewrite lookup_insert_eq. simpl. now rewrite write_file_twice.
Qed.

Lemma append_row_answer l r w :
  os_realpath RESULTS_FILE = inr l ->
  append_row r w
  = match csv_writerow r with
    | inl e => (Raise e, write_file l (default [] (fs w !! l)) w)
    | inr line =>
        (Return tt, write_file l (default [] (fs w !! l) ++ line) w)
    end.
Proof.
  intros Hl. unfold append_row, open_append. rewrite Hl.
  unfold bind, get_world, put_world, ret, writerow, write_end. simpl.
  destruct (csv_writerow r) as [e | line]; [reflexivity |].
  unfold bind, get_world, put_world. simpl.
  rewrite lookup_insert_eq. simpl. now rewrite write_file_twice.
Qed.

(** C10 (the code departs from the claim): on a ledger file that exists and
    from which the reader yields no record, an empty file for one,
    [view_expenses] raises [StopIteration] where the rows after the header,
    here none, were to be returned. *)
Theorem view_expenses_empty_file_raises l data w :
  os_realpath RESULTS_FILE = inr l ->
  fs w !! l = Some data ->
  csv_reader data = ([], None) ->
  view_expenses w = (Raise StopIteration, w).
Proof.
  intros Hl Hfile Hread. rewrite (view_expenses_answer l w Hl).
  now rewrite Hfile, Hread.
Qed.

(** X13: with the ledger path openable, [view_expenses] leaves the world as
    it is and answers from the ledger file alone: the empty list when the
    file is missing; the records after the first, in file order, when the
    reader ends without error; the reader's error when it meets one; and
    [StopIteration] when the file yields no record at all. *)
Theorem view_expenses_outcome l w :
  os_realpath RESULTS_FILE = inr l ->
  view_expenses w
  = (match fs w !! l with
     | None => Return (render_expenses [])
     | Some data =>
         match csv_reader data with
         | (header :: rows, None) => Return (render_expenses rows)
         | ([], None) => Raise StopIteration
         | (_, Some e) => Raise e
         end
     end, w).
Proof.
  intros Hl. unfold view_expenses.
  rewrite (bind_return _ _ w _ w (os_path_exists_found _ _ w Hl)).
  destruct (fs w !! l) as [data |] eqn:Hfile.
  - rewrite bool_decide_eq_true_2 by now eexists.
    rewrite (bind_return _ _ w data w) by now apply (read_file_found _ l).
    unfold read_expenses, bind.
    destruct (csv_reader data) as [[| header rows] [e |]]; simpl;
      try reflexivity.
    now rewrite collect_all.
  - rewrite bool_decide_eq_false_2; [reflexivity |].
    intros [x Hx]. discriminate Hx.
Qed.

(** ** The files across requests *)

Lemma handle_frame c w q :
  ~ saves_into c q -> fs (snd (handle c w)) !! q = fs w !! q.
Proof.
  intros Hno. destruct c as [request |]; simpl.
  - destruct (upload_file_cases request w)
      as [H | [H | [file [e [Hfile [H | [p [Hp H]]]]]]]];
      rewrite H; simpl; try reflexivity.
    apply lookup_insert_ne. intros Heq. subst q. apply Hno.
    simpl. now exists file.
  - now rewrite view_expenses_world.
Qed.

Lemma serve_frame calls w q :
  Forall (fun c => ~ saves_into c q) calls ->
  fs (serve calls w) !! q = fs w !! q.
Proof.
  revert w. induction calls as [| c rest IH]; intros w Hall; simpl.
  - reflexivity.
  - inversion Hall as [| c' rest' Hc Hrest]; subst.
    rewrite (IH _ Hrest). now apply handle_frame.
Qed.

(** X9: whatever requests are served one after another, the ledger file
    is after the last what it was before the first, as long as no upload
    among them has a name that leads to the ledger file itself. *)
Theorem serve_keeps_ledger calls l w :
  os_realpath RESULTS_FILE = inr l ->
  Forall (fun c => ~ saves_into c l) calls ->
  fs (serve calls w) !! l = fs w !! l.
Proof.
  intros _ Hall. revert w.
  induction calls as [| c rest IH]; intros w; simpl.
  - reflexivity.
  - inversion Hall as [| c' rest' Hc Hrest]; subst.
    rewrite (IH Hrest). now apply handle_frame.
Qed.

Lemma handle_keeps_files c w path :
  is_Some (fs w !! path) -> is_Some (fs (snd (handle c w)) !! path).
Proof.
  intros Hsome. destruct c as [request |]; simpl.
  - destruct (upload_file_cases request w)
      as [H | [H | [file [e [Hfile [H | [p [Hp H]]]]]]]];
      rewrite H; simpl; try exact Hsome.
    rewrite lookup_insert. destruct (decide _); [now eexists | exact Hsome].
  - now rewrite view_expenses_world.
Qed.

(** X10: no request removes a saved file: a path that holds a file still holds
    one (the same, or a later upload of that name) after any requests. *)
Theorem serve_keeps_files calls w path :
  is_Some (fs w !! path) -> is_Some (fs (serve calls w) !! path).
Proof.
  revert w. induction calls as [| c rest IH]; intros w Hsome; simpl.
  - exact Hsome.
  - now apply IH, handle_keeps_files.
Qed.

(** X11: started where no ledger file exists, with a header that the
    reader gives back as one record, the server lists no expense, whatever
    uploads and views it has served since, as long as no upload among them
    has a name that leads to the ledger file itself. *)
Theorem fresh_server_lists_nothing calls l line header w :
  os_realpath RESULTS_FILE = inr l ->
  fs w !! l = None ->
  csv_writerow header_row = inr line ->
  csv_reader line = ([header], None) ->
  Forall (fun c => ~ saves_into c l) calls ->
  fst (view_expenses (serve calls (snd (init_results_file w))))
  = Return (render_expenses []).
Proof.
  intros Hl Hnone Hwrite Hread Hall.
  rewrite (view_expenses_answer l _ Hl).
  rewrite (serve_frame calls _ l Hall).
  rewrite (init_results_file_answer l w Hl), Hnone, Hwrite. simpl.
  rewrite lookup_insert_eq. now rewrite Hread.
Qed.

(** X12: start-up leaves a ledger file that exists and is empty as it is, and
    the expenses page then fails with [StopIteration]. *)
Theorem startup_keeps_empty_ledger l data w :
  os_realpath RESULTS_FILE = inr l ->
  fs w !! l = Some data ->
  csv_reader data = ([], None) ->
  (init_results_file ;;; view_expenses) w = (Raise StopIteration, w).
Proof.
  intros Hl Hfile Hread.
  rewrite (bind_return _ _ w tt w).
  - rewrite (view_expenses_answer l w Hl). now rewrite Hfile, Hread.
  - rewrite (init_results_file_answer l w Hl). now rewrite Hfile.
Qed.

(** X14: a row appended while the ledger file is missing opens a file without a
    header: the expenses page takes that row, read back as one record, for
    the header and lists nothing. *)
Theorem append_without_ledger_hides_row r line record l w :
  os_realpath RESULTS_FILE = inr l ->
  fs w !! l = None ->
  csv_writerow r = inr line ->
  csv_reader line = ([record], None) ->
  (append_row r ;;; view_expenses) w
  = (Return (render_expenses []), write_file l line w).
Proof.
  intros Hl Hnone Hwrite Hread.
  rewrite (bind_return _ _ w tt (write_file l line w)).
  - rewrite (view_expenses_answer l _ Hl). simpl.
    rewrite lookup_insert_eq. now rewrite Hread.
  - rewrite (append_row_answer l r w Hl), Hwrite.
    unfold bytes in *. now rewrite Hnone.
Qed.

End Properties.

(** ** The properties at work on the small instance *)

Lemma preprocess_image_normalises_witness :
  preprocess_image (libs := demo_libs) (py "uploads/slip.png") demo_world
  = (Return [[0; 255; 255]; [0; 0; 255]], demo_world)
  /\ exists out,
       preprocess_image (libs := demo_libs) (py "uploads/slip.png") demo_world
       = (Return out, demo_world)
       /\ out = medianBlur (snd (threshold_otsu (libs := demo_libs)
                                   (grayscale [[PxL 10; PxL 200; PxL 255];
                                               [PxL 90; PxL 130; PxL 0]])
                                   255))
       /\ rectangular 2 3 out
       /\ binary out
       /\ forall y x, (y < 2)%nat -> (x < 3)%nat ->
            nth x (nth y out []) 0
            = majority_level [[PxL 10; PxL 200; PxL 255];
                              [PxL 90; PxL 130; PxL 0]] 2 3 127
                (Z.of_nat y) (Z.of_nat x).
Proof.
  split; [vm_compute; reflexivity |].
  apply (preprocess_image_normalises (libs := demo_libs)
           (py "uploads/slip.png") (py "uploads/slip.png") demo_picture
           [[PxL 10; PxL 200; PxL 255]; [PxL 90; PxL 130; PxL 0]]
           2%nat 3%nat demo_world).
  - vm_compute. reflexivity.
  - vm_compute. reflexivity.
  - vm_compute. reflexivity.
  - split; [reflexivity | repeat constructor].
Defined.



Lemma upload_without_file_redirects_witness :
  upload_file (libs := demo_libs) post_without_file demo_world
  = (Return (redirect (py "http://localhost:5000/")), demo_world).
Proof.
  apply (upload_without_file_redirects (libs := demo_libs)
           post_without_file demo_world).
  - reflexivity.
  - left. reflexivity.
Defined.

Lemma view_expenses_empty_ledger :
  view_expenses (libs := demo_libs) empty_ledger
  = (Raise StopIteration, empty_ledger).
Proof.
  apply (view_expenses_empty_file_raises (libs := demo_libs)
           (py "expenses.csv") [] empty_ledger).
  - reflexivity.
  - vm_compute. reflexivity.
  - reflexivity.
Defined.

(** ** Further runs on the small instance *)

Lemma preprocess_image_majority_witness :
  exists out,
    preprocess_image (libs := demo_libs) (py "uploads/slip.png") demo_world
    = (Return out, demo_world)
    /\ nth 1 (nth 0 out []) 0
       = if (5 <=? bright_neighbours (libs := demo_libs)
                     (grayscale [[PxL 10; PxL 200; PxL 255];
                                 [PxL 90; PxL 130; PxL 0]]) 0 1)%nat
         then 255 else 0.
Proof.
  apply (preprocess_image_majority (libs := demo_libs)
           (py "uploads/slip.png") (py "uploads/slip.png") demo_picture
           [[PxL 10; PxL 200; PxL 255]; [PxL 90; PxL 130; PxL 0]]
           2%nat 3%nat demo_world 0%nat 1%nat).
  - vm_compute. reflexivity.
  - vm_compute. reflexivity.
  - vm_compute. reflexivity.
  - split; [reflexivity | repeat constructor].
  - lia.
  - lia.
Defined.


Lemma upload_file_frame_witness :
  fs (snd (upload_file (libs := demo_libs) post_slip demo_world))
    !! py "uploads/notes.txt"
  = fs demo_world !! py "uploads/notes.txt".
Proof.
  apply (upload_file_frame (libs := demo_libs) post_slip demo_world
           (py "uploads/notes.txt")).
  intros file Hfile. vm_compute in Hfile. inversion Hfile. subst file.
  vm_compute. discriminate.
Defined.


Lemma serve_keeps_ledger_witness :
  fs (serve (libs := demo_libs)
        [CallUpload post_slip; CallExpenses; CallUpload post_notes]
        demo_world) !! py "expenses.csv"
  = fs demo_world !! py "expenses.csv".
Proof.
  apply (serve_keeps_ledger (libs := demo_libs)
           [CallUpload post_slip; CallExpenses; CallUpload post_notes]
           (py "expenses.csv") demo_world).
  - reflexivity.
  - repeat apply List.Forall_cons; no_save_into.
Defined.

Lemma serve_keeps_files_witness :
  is_Some (fs (serve (libs := demo_libs)
                 [CallUpload post_slip; CallExpenses] demo_world)
           !! py "uploads/notes.txt").
Proof.
  apply (serve_keeps_files (libs := demo_libs)
           [CallUpload post_slip; CallExpenses] demo_world
           (py "uploads/notes.txt")).
  vm_compute. eexists. reflexivity.
Defined.

Lemma fresh_server_lists_nothing_witness :
  fst (view_expenses (libs := demo_libs)
         (serve (libs := demo_libs)
            [CallUpload post_slip; CallExpenses; CallUpload post_notes]
            (snd (init_results_file (libs := demo_libs) fresh_world))))
  = Return (render_expenses []).
Proof.
  apply (fresh_server_lists_nothing (libs := demo_libs)
           [CallUpload post_slip; CallExpenses; CallUpload post_notes]
           (py "expenses.csv") header_line header_row fresh_world).
  - reflexivity.
  - reflexivity.
  - vm_compute. reflexivity.
  - vm_compute. reflexivity.
  - repeat apply List.Forall_cons; no_save_into.
Defined.

Lemma startup_keeps_empty_ledger_witness :
  (init_results_file (libs := demo_libs) ;;; view_expenses (libs := demo_libs))
    empty_ledger
  = (Raise StopIteration, empty_ledger).
Proof.
  apply (startup_keeps_empty_ledger (libs := demo_libs)
           (py "expenses.csv") [] empty_ledger).
  - reflexivity.
  - vm_compute. reflexivity.
  - reflexivity.
Defined.

Lemma append_without_ledger_hides_row_witness :
  (append_row (libs := demo_libs) [py "c.png"; py ""; py ""; py "blank"] ;;;
   view_expenses (libs := demo_libs)) fresh_world
  = (Return (render_expenses []),
     write_file (py "expenses.csv")
       (to_bytes (py "c.png,,,blank" ++ [13; 10]%N)) fresh_world).
Proof.
  apply (append_without_ledger_hides_row (libs := demo_libs)
           [py "c.png"; py ""; py ""; py "blank"]
           (to_bytes (py "c.png,,,blank" ++ [13; 10]%N))
           [py "c.png"; py ""; py ""; py "blank"]
           (py "expenses.csv") fresh_world).
  - reflexivity.
  - reflexivity.
  - vm_compute. reflexivity.
  - vm_compute. reflexivity.
Defined.

Lemma view_expenses_outcome_witness :
  view_expenses (libs := demo_libs) two_slips
  = (Return (render_expenses
               [[py "a.png"; py "120.0"; py ""; py "Total 120.00"];
                [py "b.png"; py ""; py ""; py "unreadable"]]),
     two_slips).
Proof.
  rewrite (view_expenses_outcome (libs := demo_libs)
             (py "expenses.csv") two_slips eq_refl).
  vm_compute. reflexivity.
Defined.

(** An upload whose name leads to the ledger is written over it: the ledger
    is then empty and the expenses page fails. *)
Example upload_onto_ledger_overwrites :
  fs (snd (upload_file (libs := demo_libs) post_onto_ledger demo_world))
    !! py "expenses.csv" = Some []
  /\ fst (view_expenses (libs := demo_libs)
            (snd (upload_file (libs := demo_libs) post_onto_ledger
                    demo_world)))
     = Raise StopIteration.
Proof. split; vm_compute; reflexivity. Qed.

(** A picture cut short passes [Image.open] and fails where its pixels are
    read. *)
Example cut_picture_fails_in_grayscale :
  fst (Image_open (libs := demo_libs) (py "uploads/cut.png")
         (snd (upload_file (libs := demo_libs) post_cut fresh_world)))
  = Return (inl (OSError "image file is truncated"))
  /\ fst (upload_file (libs := demo_libs) post_cut fresh_world)
     = Raise (OSError "image file is truncated").
Proof. split; vm_compute; reflexivity. Qed.
